(** * Automation-Energy-Sales: the FastAPI gateway of [app.py]

    A shallow embedding of the request handlers of [app.py]: the price
    classifier behind [POST /analyze], the bearer-token dependency
    [get_current_user], and the forwarders to the external store.

    Python values decoded from JSON are an inductive type, Python floats are
    binary64 values of the standard library's [spec_float], exceptions are
    an explicit outcome type, dictionaries received from the client are
    [gmap string value]. *)

From Stdlib Require Import ZArith QArith Qpower Lia.
From Stdlib Require Import Floats.SpecFloat.
From stdpp Require Import base option gmap strings.

Set Warnings "-register-all".
Local Open Scope Z_scope.

(** ** Python values *)

Module Py.

(** What [json] decoding hands to a handler: [None], [bool], [int] (unbounded),
    [float] (binary64), [str], [list] and [dict] (insertion ordered). *)
Inductive value : Type :=
| VNone
| VBool (b : bool)
| VInt (n : Z)
| VFloat (x : spec_float)
| VStr (s : string)
| VList (l : list value)
| VDict (d : list (string * value)).

(** Exceptions that the handlers raise or let through. [HTTPException] is
    FastAPI's; its [detail] is any JSON-serialisable value.
    [InvalidJSONError] is the one [requests] raises for a body it cannot
    serialise. *)
Inductive exn : Type :=
| TypeError
| ValueError
| JWTError
| JSONDecodeError
| InvalidJSONError
| HTTPException (status_code : Z) (detail : value).

Inductive outcome (A : Type) : Type :=
| Returns (a : A)
| Raises (e : exn).
Arguments Returns {A} a.
Arguments Raises {A} e.

#[export] Instance outcome_ret : MRet outcome := fun A a => Returns a.

#[export] Instance outcome_bind : MBind outcome := fun A B k m =>
  match m with
  | Returns a => k a
  | Raises e => Raises e
  end.

(** [try: body except <caught>: handler]: only the exceptions selected by
    [caught] reach the handler, the others propagate. *)
Definition try_except {A} (body : outcome A) (caught : exn -> bool)
    (handler : exn -> outcome A) : outcome A :=
  match body with
  | Returns a => Returns a
  | Raises e => if caught e then handler e else Raises e
  end.

(** [d[k]] on a dict literal built by a handler (first binding wins: the
    handlers never repeat a key). *)
Fixpoint dict_get (k : string) (d : list (string * value)) : option value :=
  match d with
  | [] => None
  | (k', v) :: d' => if String.eqb k k' then Some v else dict_get k d'
  end.

Definition item (k : string) (v : value) : option value :=
  match v with
  | VDict d => dict_get k d
  | _ => None
  end.

End Py.

Export Py.

(** ** binary64 and Python's ordering of numbers *)

Module Float.

Definition prec : Z := 53.
Definition emax : Z := 1024.

(** A Python float is a binary64 value in canonical form. *)
Definition valid (x : spec_float) : bool := valid_binary prec emax x.

Definition is_finite (x : spec_float) : bool :=
  match x with
  | S754_zero _ | S754_finite _ _ _ => true
  | S754_infinity _ | S754_nan => false
  end.

Definition signed (s : bool) (m : positive) : Z :=
  if s then Zneg m else Zpos m.

(** [float < float], [float > float]: the C comparison of doubles. *)
Definition compare (x y : spec_float) : option comparison := SFcompare x y.

(** [float] against [int]: CPython compares the exact values, whatever the
    size of the integer; an infinity is beyond every integer and a NaN is
    unordered. *)
Definition compare_int (x : spec_float) (n : Z) : option comparison :=
  match x with
  | S754_nan => None
  | S754_infinity s => Some (if s then Lt else Gt)
  | S754_zero _ => Some (0 ?= n)
  | S754_finite s m e =>
      match e with
      | Zneg p => Some (signed s m ?= n * Zpos (2 ^ p))
      | _ => Some (signed s m * 2 ^ e ?= n)
      end
  end.

Definition is_lt (c : option comparison) : bool :=
  match c with
  | Some Lt => true
  | _ => false
  end.

Definition is_gt (c : option comparison) : bool :=
  match c with
  | Some Gt => true
  | _ => false
  end.

(** [2^e] as a rational. *)
Definition pow2 (e : Z) : Q :=
  match e with
  | Zneg p => 1 # (2 ^ p)
  | _ => inject_Z (2 ^ e)
  end.

(** The exact value of a finite float, in lowest terms; infinities and NaN
    have none. *)
Definition to_Q (x : spec_float) : option Q :=
  match x with
  | S754_zero _ => Some 0%Q
  | S754_finite s m e => Some (Qred (inject_Z (signed s m) * pow2 e))
  | _ => None
  end.

End Float.

(** [x < v] and [x > v] for a float [x]: defined against [float], [int] and
    [bool] (a subclass of [int]); every other operand makes both
    [float.__lt__] and the reflected method return [NotImplemented], which
    is a [TypeError]. *)
Definition float_lt (x : spec_float) (v : value) : outcome bool :=
  match v with
  | VFloat y => Returns (Float.is_lt (Float.compare x y))
  | VInt n => Returns (Float.is_lt (Float.compare_int x n))
  | VBool b => Returns (Float.is_lt (Float.compare_int x (Z.b2z b)))
  | _ => Raises TypeError
  end.

Definition float_gt (x : spec_float) (v : value) : outcome bool :=
  match v with
  | VFloat y => Returns (Float.is_gt (Float.compare x y))
  | VInt n => Returns (Float.is_gt (Float.compare_int x n))
  | VBool b => Returns (Float.is_gt (Float.compare_int x (Z.b2z b)))
  | _ => Raises TypeError
  end.

(** The exact value of a finite numeric operand: an [int], a [bool] (0 or
    1), or a finite [float] in canonical form. *)
Definition number (v : value) : option Q :=
  match v with
  | VInt n => Some (inject_Z n)
  | VBool b => Some (inject_Z (Z.b2z b))
  | VFloat y => if Float.valid y then Float.to_Q y else None
  | _ => None
  end.

(** The operands Python orders against a float without a [TypeError];
    infinities and NaN included. *)
Definition is_number (v : value) : bool :=
  match v with
  | VInt _ | VBool _ | VFloat _ => true
  | _ => false
  end.

Definition Qltb (q r : Q) : bool :=
  match (q ?= r)%Q with
  | Lt => true
  | _ => false
  end.

(** [json.dumps(v, allow_nan=False)] succeeds: no NaN and no infinity
    anywhere in the value. *)
Fixpoint json_compliant (v : value) : bool :=
  match v with
  | VFloat x => Float.is_finite x
  | VList l => forallb json_compliant l
  | VDict d => forallb (λ kv, json_compliant kv.2) d
  | _ => true
  end.

(** ** [POST /analyze] *)

(** [class AnalyzeRequest(BaseModel)]: [price: float], [thresholds: dict].
    The [dict] annotation carries no value type, so a threshold may be any
    JSON value. *)
Record AnalyzeRequest : Type := {
  price : spec_float;
  thresholds : gmap string value;
}.

(** [d.get(k, dflt)] *)
Definition get (d : gmap string value) (k : string) (dflt : value) : value :=
  default dflt (d !! k).

Definition analyze_price (data : AnalyzeRequest) : outcome value :=
  float_lt (price data) (get (thresholds data) "buy" (VInt 200)) ≫= λ below : bool,
  if below then
    Returns (VDict [("action", VStr "buy");
                    ("reason", VStr "Cena ponizej progu zakupu")])
  else
    float_gt (price data) (get (thresholds data) "sell" (VInt 600)) ≫= λ above : bool,
    if above then
      Returns (VDict [("action", VStr "sell");
                      ("reason", VStr "Cena powyzej progu sprzedazy")])
    else
      Returns (VDict [("action", VStr "wait");
                      ("reason", VStr "Cena neutralna")]).

(** The ["action"] and ["reason"] entries of what a handler returned. *)
Definition action_of (r : outcome value) : option value :=
  match r with
  | Returns v => item "action" v
  | Raises _ => None
  end.

Definition reason_of (r : outcome value) : option value :=
  match r with
  | Returns v => item "reason" v
  | Raises _ => None
  end.

(** The classifier in the words of the specification, over exact values. *)
Definition classify (price buyThreshold sellThreshold : Q) : value :=
  if Qltb price buyThreshold then
    VDict [("action", VStr "buy"); ("reason", VStr "price below buy threshold")]
  else if Qltb sellThreshold price then
    VDict [("action", VStr "sell"); ("reason", VStr "price above sell threshold")]
  else
    VDict [("action", VStr "wait"); ("reason", VStr "price neutral")].

(** The same three branches with the reasons the handler writes. *)
Definition classify_pl (price buyThreshold sellThreshold : Q) : value :=
  if Qltb price buyThreshold then
    VDict [("action", VStr "buy"); ("reason", VStr "Cena ponizej progu zakupu")]
  else if Qltb sellThreshold price then
    VDict [("action", VStr "sell"); ("reason", VStr "Cena powyzej progu sprzedazy")]
  else
    VDict [("action", VStr "wait"); ("reason", VStr "Cena neutralna")].

(** [thresholds[k] if present else dflt] *)
Definition resolve (thresholds : gmap string value) (k : string) (dflt : Z) : value :=
  match thresholds !! k with
  | Some v => v
  | None => VInt dflt
  end.

(** *** Equal inputs *)






(** Floats used as concrete inputs: mantissa and exponent of the binary64
    values 50.0, 150.0, 200.0, 300.0, 400.0, 600.0, 700.0 and 800.0. *)
Module Sample.
Definition f50 : spec_float := S754_finite false 7036874417766400 (-47).
Definition f150 : spec_float := S754_finite false 5277655813324800 (-45).
Definition f200 : spec_float := S754_finite false 7036874417766400 (-45).
Definition f400 : spec_float := S754_finite false 7036874417766400 (-44).
Definition f600 : spec_float := S754_finite false 5277655813324800 (-43).
Definition f700 : spec_float := S754_finite false 6157265115545600 (-43).
Definition f800 : spec_float := S754_finite false 7036874417766400 (-43).
End Sample.

(** ** The world outside the process *)

Module Http.

Inductive verb : Type := GET | POST.

(** One outbound call of [requests]: [requests.post(url, headers=..., json=...)]
    or [requests.get(url, headers=...)]. *)
Record Request : Type := {
  method : verb;
  url : string;
  headers : list (string * string);
  json_body : option value;
}.

(** What the handlers read of a [requests.Response]: [status_code], [text],
    and the decoded body, absent when the body is not JSON. *)
Record Response : Type := {
  status_code : Z;
  text : string;
  decoded : option value;
}.

(** [response.json()] *)
Definition json (r : Response) : outcome value :=
  match decoded r with
  | Some v => Returns v
  | None => Raises JSONDecodeError
  end.

(** A handler runs against the log of the calls made to [requests] so far
    and extends it; an exception keeps the log. *)
Definition io (A : Type) : Type := list Request -> outcome A * list Request.

#[export] Instance io_ret : MRet io := fun A a log => (Returns a, log).

#[export] Instance io_bind : MBind io := fun A B k m log =>
  match m log with
  | (Returns a, log') => k a log'
  | (Raises e, log') => (Raises e, log')
  end.

Definition raise {A} (e : exn) : io A := fun log => (Raises e, log).

Definition lift {A} (m : outcome A) : io A := fun log => (m, log).

Definition run {A} (m : io A) : outcome A * list Request := m [].

End Http.

Export Http.

(** ** The handlers of [app.py] *)

Section Gateway.

(** Module-level configuration, read from the environment at import. *)
Variable SUPABASE_URL : string.
Variable SUPABASE_API_KEY : string.
Variable SUPABASE_JWT_SECRET : string.

(** [jose.jwt.decode(token, key, algorithms=...)]: the claims of a token
    whose signature verifies, or an exception. *)
Variable jwt_decode : string -> string -> list string -> outcome (gmap string value).

(** The external service: the response it gives to a request. *)
Variable upstream : Request -> Response.

(** [datetime.utcnow().isoformat()] at the time of the call. *)
Variable utcnow_isoformat : string.

(** [str(v)], as the f-strings apply it. *)
Variable str : value -> string.

(** [http.HTTPStatus(code).phrase]; [None] where [code] is no member of
    [HTTPStatus] and the lookup raises [ValueError]. *)
Variable status_phrase : Z -> option string.

(** [requests.post(u, headers=h, json=j)]. The library serialises the body
    with [allow_nan=False] before anything is sent and raises
    [InvalidJSONError] when that fails. The log records the call with its
    arguments either way. *)
Definition requests_post (u : string) (h : list (string * string)) (j : value)
    : io Response :=
  fun log =>
    let req := {| method := POST; url := u; headers := h; json_body := Some j |} in
    if json_compliant j then (Returns (upstream req), log ++ [req])
    else (Raises InvalidJSONError, log ++ [req]).

Definition requests_get (u : string) (h : list (string * string)) : io Response :=
  fun log =>
    let req := {| method := GET; url := u; headers := h; json_body := None |} in
    (Returns (upstream req), log ++ [req]).

Record HTTPAuthorizationCredentials : Type := {
  scheme : string;
  credentials : string;
}.

Definition is_JWTError (e : exn) : bool :=
  match e with
  | JWTError => true
  | _ => false
  end.

Definition is_None (v : value) : bool :=
  match v with
  | VNone => true
  | _ => false
  end.

(** [HTTPException(status_code=status, detail=detail)]: the constructor
    replaces a [None] detail by the phrase of the status. With any other
    detail, the literal strings and [response.text] of the handlers below
    included, it keeps what it is given. *)
Definition http_exception (status : Z) (detail : value) : outcome exn :=
  if is_None detail then
    match status_phrase status with
    | Some phrase => Returns (HTTPException status (VStr phrase))
    | None => Raises ValueError
    end
  else
    Returns (HTTPException status detail).

(** [raise HTTPException(status_code=status, detail=detail)]: what ends up
    raised once the constructor has run. *)
Definition raised {A} (status : Z) (detail : value) : outcome A :=
  match http_exception status detail with
  | Returns e => Raises e
  | Raises e => Raises e
  end.

Definition get_current_user (creds : HTTPAuthorizationCredentials) : outcome value :=
  let token := credentials creds in
  try_except
    (jwt_decode token SUPABASE_JWT_SECRET ["HS256"] ≫= λ payload : gmap string value,
     let user_id := get payload "sub" VNone in
     if is_None user_id then
       Raises (HTTPException 401 (VStr "Nieprawidłowy token"))
     else
       Returns user_id)
    is_JWTError
    (λ _, Raises (HTTPException 403 (VStr "Błąd autoryzacji"))).

Record AuthData : Type := {
  email : string;
  password : string;
}.

(** [Decision.price] is [decision_price] here: [price] already names the
    field of [AnalyzeRequest]. *)
Record Decision : Type := {
  action : string;
  reason : string;
  decision_price : spec_float;
  volume : spec_float;
}.

Record FileUpload : Type := {
  filename : string;
  raw_data : list (string * value);
}.

Definition register (data : AuthData) : io value :=
  requests_post
    (SUPABASE_URL +:+ "/auth/v1/signup")
    [("apikey", SUPABASE_API_KEY); ("Content-Type", "application/json")]
    (VDict [("email", VStr (email data)); ("password", VStr (password data))])
  ≫= λ response : Response,
  if negb (status_code response =? 200) then
    lift (json response) ≫= λ detail : value,
    lift (raised (status_code response) detail)
  else
    lift (json response).

Definition login (data : AuthData) : io value :=
  requests_post
    (SUPABASE_URL +:+ "/auth/v1/token?grant_type=password")
    [("apikey", SUPABASE_API_KEY); ("Content-Type", "application/json")]
    (VDict [("email", VStr (email data)); ("password", VStr (password data))])
  ≫= λ response : Response,
  if negb (status_code response =? 200) then
    lift (json response) ≫= λ detail : value,
    lift (raised (status_code response) detail)
  else
    lift (json response).

Definition get_profile (user_id : value) : io value :=
  mret (VDict [("user_id", user_id)]).

Definition add_decision (data : Decision) (user_id : value) : io value :=
  requests_post
    (SUPABASE_URL +:+ "/rest/v1/decisions")
    [("apikey", SUPABASE_API_KEY);
     ("Authorization", "Bearer " +:+ SUPABASE_API_KEY);
     ("Content-Type", "application/json")]
    (VDict [("user_id", user_id);
            ("timestamp", VStr utcnow_isoformat);
            ("action", VStr (action data));
            ("reason", VStr (reason data));
            ("price", VFloat (decision_price data));
            ("volume", VFloat (volume data))])
  ≫= λ response : Response,
  if negb (status_code response =? 201) then
    raise (HTTPException (status_code response) (VStr (text response)))
  else
    mret (VDict [("status", VStr "decision saved")]).

Definition get_user_decisions (user_id : value) : io value :=
  requests_get
    (SUPABASE_URL +:+ "/rest/v1/decisions?user_id=eq." +:+ str user_id
       +:+ "&order=timestamp.desc")
    [("apikey", SUPABASE_API_KEY);
     ("Authorization", "Bearer " +:+ SUPABASE_API_KEY)]
  ≫= λ response : Response,
  if negb (status_code response =? 200) then
    raise (HTTPException (status_code response) (VStr (text response)))
  else
    lift (json response).

Definition upload_data (data : FileUpload) (user_id : value) : io value :=
  requests_post
    (SUPABASE_URL +:+ "/rest/v1/uploads")
    [("apikey", SUPABASE_API_KEY);
     ("Authorization", "Bearer " +:+ SUPABASE_API_KEY);
     ("Content-Type", "application/json")]
    (VDict [("user_id", user_id);
            ("uploaded_at", VStr utcnow_isoformat);
            ("filename", VStr (filename data));
            ("raw_data", VDict (raw_data data))])
  ≫= λ response : Response,
  if negb (status_code response =? 201) then
    raise (HTTPException (status_code response) (VStr (text response)))
  else
    mret (VDict [("status", VStr "upload saved")]).

Definition get_user_uploads (user_id : value) : io value :=
  requests_get
    (SUPABASE_URL +:+ "/rest/v1/uploads?user_id=eq." +:+ str user_id
       +:+ "&order=uploaded_at.desc")
    [("apikey", SUPABASE_API_KEY);
     ("Authorization", "Bearer " +:+ SUPABASE_API_KEY)]
  ≫= λ response : Response,
  if negb (status_code response =? 200) then
    raise (HTTPException (status_code response) (VStr (text response)))
  else
    lift (json response).

(** [user_id = Depends(get_current_user)]: the dependency is resolved before
    the handler body runs; when it raises, the body is not entered. *)
Definition depends_user (creds : HTTPAuthorizationCredentials)
    (handler : value -> io value) : io value :=
  lift (get_current_user creds) ≫= handler.

(** The routing table built by the [@app.get] / [@app.post] decorators. *)
Inductive call : Type :=
| PostRegister (data : AuthData)
| PostLogin (data : AuthData)
| GetMe (creds : HTTPAuthorizationCredentials)
| PostDecision (data : Decision) (creds : HTTPAuthorizationCredentials)
| GetDecisions (creds : HTTPAuthorizationCredentials)
| PostAnalyze (data : AnalyzeRequest)
| PostUpload (data : FileUpload) (creds : HTTPAuthorizationCredentials)
| GetUploads (creds : HTTPAuthorizationCredentials).

Definition app (c : call) : io value :=
  match c with
  | PostRegister data => register data
  | PostLogin data => login data
  | GetMe creds => depends_user creds get_profile
  | PostDecision data creds => depends_user creds (add_decision data)
  | GetDecisions creds => depends_user creds get_user_decisions
  | PostAnalyze data => lift (analyze_price data)
  | PostUpload data creds => depends_user creds (upload_data data)
  | GetUploads creds => depends_user creds get_user_uploads
  end.

End Gateway.

(** Everything a request can observe outside its own arguments. *)
Record World : Type := {
  env_url : string;
  env_api_key : string;
  env_jwt_secret : string;
  env_jwt_decode : string -> string -> list string -> outcome (gmap string value);
  env_upstream : Request -> Response;
  env_utcnow : string;
  env_str : value -> string;
  env_status_phrase : Z -> option string;
}.

Definition serve (w : World) (c : call) : io value :=
  app (env_url w) (env_api_key w) (env_jwt_secret w) (env_jwt_decode w)
    (env_upstream w) (env_utcnow w) (env_str w) (env_status_phrase w) c.

(** Stand-ins for the collaborators, used as concrete inputs. *)
Module Stub.

(** A token decoder that knows two well-signed tokens, one with a subject
    and one without, and rejects every other token. *)
Definition decode (token key : string) (algorithms : list string)
    : outcome (gmap string value) :=
  if String.eqb token "signed.with.sub" then
    Returns {[ "sub" := VStr "user-1"; "role" := VStr "authenticated" ]}
  else if String.eqb token "signed.without.sub" then
    Returns {[ "role" := VStr "authenticated" ]}
  else
    Raises JWTError.

Definition bearer (token : string) : HTTPAuthorizationCredentials :=
  {| scheme := "Bearer"; credentials := token |}.

(** A gateway in front of the service answers 502 with an HTML page. *)
Definition bad_gateway : Response :=
  {| status_code := 502;
     text := "<html><body>502 Bad Gateway</body></html>";
     decoded := None |}.

(** The service refuses a request with a JSON error body. *)
Definition unprocessable : Response :=
  {| status_code := 422;
     text := "{code: 422}";
     decoded := Some (VDict [("code", VInt 422)]) |}.

Definition created : Response :=
  {| status_code := 201; text := "[7]"; decoded := Some (VList [VInt 7]) |}.

Definition ok_empty : Response :=
  {| status_code := 200; text := "[]"; decoded := Some (VList []) |}.

Definition show (v : value) : string :=
  match v with
  | VStr s => s
  | _ => "None"
  end.

(** A few rows of [http.HTTPStatus]. *)
Definition phrase (status : Z) : option string :=
  if status =? 401 then Some "Unauthorized"
  else if status =? 404 then Some "Not Found"
  else if status =? 502 then Some "Bad Gateway"
  else None.

Definition world (answer : Response) : World :=
  {| env_url := "https://project.supabase.co";
     env_api_key := "anon-key";
     env_jwt_secret := "secret";
     env_jwt_decode := decode;
     env_upstream := λ _, answer;
     env_utcnow := "2024-05-01T12:00:00";
     env_str := show;
     env_status_phrase := phrase |}.

Definition user : AuthData := {| email := "a@b.pl"; password := "pw" |}.

Definition decision : Decision :=
  {| action := "buy"; reason := "Cena ponizej progu zakupu";
     decision_price := Sample.f150; volume := Sample.f50 |}.

Definition upload : FileUpload :=
  {| filename := "prices.csv"; raw_data := [("rows", VInt 3)] |}.

End Stub.

(** ** What a request causes *)

(** The credentials of the routes declared with
    [Depends(get_current_user)]. *)
Definition bearer_of (c : call) : option HTTPAuthorizationCredentials :=
  match c with
  | GetMe creds | PostDecision _ creds | GetDecisions creds
  | PostUpload _ creds | GetUploads creds => Some creds
  | PostRegister _ | PostLogin _ | PostAnalyze _ => None
  end.

(** The routes whose body calls [requests]. *)
Definition forwards (c : call) : bool :=
  match c with
  | PostAnalyze _ | GetMe _ => false
  | _ => true
  end.

(** The verb of the route itself: [@app.get] or [@app.post]. *)
Definition verb_of (c : call) : verb :=
  match c with
  | GetMe _ | GetDecisions _ | GetUploads _ => GET
  | _ => POST
  end.

(** Whether the token dependency lets the request reach the handler. *)
Definition authorised (w : World) (c : call) : bool :=
  match bearer_of c with
  | None => true
  | Some creds =>
      match get_current_user (env_jwt_secret w) (env_jwt_decode w) creds with
      | Returns _ => true
      | Raises _ => false
      end
  end.

(** The outbound calls that serving a request adds to the log. *)
Definition sent (w : World) (c : call) (log : list Request) : list Request :=
  drop (length log) (snd (serve w c log)).

(** [headers[k]] of an outbound call. *)
Fixpoint header (k : string) (h : list (string * string)) : option string :=
  match h with
  | [] => None
  | (k', v) :: h' => if String.eqb k k' then Some v else header k h'
  end.

(** More concrete inputs: answers of the external service and a record. *)
Module Reply.

Definition partial_content : Response :=
  {| status_code := 206; text := "[]"; decoded := Some (VList []) |}.

Definition ok_rows : Response :=
  {| status_code := 200; text := "[{id: 1}]";
     decoded := Some (VList [VDict [("id", VInt 1)]]) |}.

Definition ok_page : Response :=
  {| status_code := 200; text := "<html></html>"; decoded := None |}.

(** A service that gives the same answer to every request. *)
Definition always (answer : Response) : Request -> Response := λ _, answer.

(** An error answer whose body is the JSON text [null]. *)
Definition null_unauthorized : Response :=
  {| status_code := 401; text := "null"; decoded := Some VNone |}.

(** A decision whose price is NaN, as the request body may carry it. *)
Definition nan_decision : Decision :=
  {| action := "wait"; reason := "Cena neutralna";
     decision_price := S754_nan; volume := Sample.f50 |}.

End Reply.

(** ** Facts about binary64 ordering *)

Module FloatFacts.
Import Float.

Lemma pow2_pos e : (0 < pow2 e)%Q.
Proof.
  destruct e as [|p|p]; unfold pow2, Qlt; simpl; try lia.
Qed.

(** [2^e] splits at any smaller exponent. *)
Lemma pow2_split e k :
  k <= e -> (pow2 e == inject_Z (2 ^ (e - k)) * pow2 k)%Q.
Proof.
  intros Hk.
  assert (Hpos : forall p, Zpos (2 ^ p) = 2 ^ Zpos p) by (intros; apply Pos2Z.inj_pow).
  destruct e as [|p|p], k as [|q|q]; try lia; unfold pow2, Qeq, inject_Z, Qmult;
    cbn [Qnum Qden]; rewrite ?Hpos, ?Pos.mul_1_l, ?Z.mul_1_r, ?Z.mul_1_l.
  all: rewrite ?Hpos, <- ?Z.pow_add_r by lia; f_equal; lia.
Qed.

Lemma Qcompare_inject_Z a b : (inject_Z a ?= inject_Z b)%Q = (a ?= b).
Proof. unfold Qcompare, inject_Z; cbn [Qnum Qden]. now rewrite !Z.mul_1_r. Qed.

Lemma Qcompare_mult_r (x y z : Q) :
  (0 < z)%Q -> (x * z ?= y * z)%Q = (x ?= y)%Q.
Proof.
  intros Hz.
  destruct (Qcompare_spec x y) as [H|H|H].
  - apply Qeq_alt. now rewrite H.
  - apply Qlt_alt. now apply Qmult_lt_r.
  - apply Qgt_alt. now apply Qmult_lt_r.
Qed.

(** Two scaled integers compare as the integers brought to a common
    exponent. *)
Lemma Qcompare_scaled a b e1 e2 k :
  k <= e1 -> k <= e2 ->
  (inject_Z a * pow2 e1 ?= inject_Z b * pow2 e2)%Q
  = (a * 2 ^ (e1 - k) ?= b * 2 ^ (e2 - k)).
Proof.
  intros H1 H2.
  rewrite (pow2_split e1 k H1), (pow2_split e2 k H2), !Qmult_assoc.
  rewrite Qcompare_mult_r by apply pow2_pos.
  now rewrite <- !inject_Z_mult, Qcompare_inject_Z.
Qed.

(** The mantissa of a float lies between two consecutive powers of two. *)
Lemma digits2_pos_bounds m :
  2 ^ (Zpos (digits2_pos m) - 1) <= Zpos m < 2 ^ Zpos (digits2_pos m).
Proof.
  induction m as [m IH|m IH|]; cbn [digits2_pos].
  - rewrite Pos2Z.inj_succ.
    replace (Z.succ (Zpos (digits2_pos m)) - 1) with (Z.succ (Zpos (digits2_pos m) - 1)) by lia.
    rewrite !Z.pow_succ_r by lia. lia.
  - rewrite Pos2Z.inj_succ.
    replace (Z.succ (Zpos (digits2_pos m)) - 1) with (Z.succ (Zpos (digits2_pos m) - 1)) by lia.
    rewrite !Z.pow_succ_r by lia. lia.
  - cbn. lia.
Qed.

(** A canonical binary64 mantissa has at most 53 bits, and exactly 53 above
    the smallest exponent. *)
Lemma bounded_digits m e :
  bounded prec emax m e = true ->
  -1074 <= e /\ Zpos (digits2_pos m) <= 53 /\
  (-1074 < e -> Zpos (digits2_pos m) = 53).
Proof.
  unfold bounded, canonical_mantissa, fexp, SpecFloat.emin, prec, emax.
  intros H. apply andb_prop in H as [H _]. apply Z.eqb_eq in H. lia.
Qed.

Lemma bounded_mantissa m e :
  bounded prec emax m e = true ->
  Zpos m < 2 ^ 53 /\ (-1074 < e -> 2 ^ 52 <= Zpos m).
Proof.
  intros H. destruct (bounded_digits m e H) as (_ & Hle & Heq).
  pose proof (digits2_pos_bounds m) as [Hlo Hhi]. split.
  - eapply Z.lt_le_trans; [exact Hhi|]. apply Z.pow_le_mono_r; lia.
  - intros He. rewrite (Heq He) in Hlo. exact Hlo.
Qed.

(** With canonical mantissas the exponent decides. *)
Lemma mantissa_lt_exponent m1 e1 m2 e2 :
  bounded prec emax m1 e1 = true ->
  bounded prec emax m2 e2 = true ->
  e1 < e2 ->
  Zpos m1 * 2 ^ (e1 - e1) < Zpos m2 * 2 ^ (e2 - e1).
Proof.
  intros B1 B2 He.
  destruct (bounded_mantissa m1 e1 B1) as [H1 _].
  destruct (bounded_mantissa m2 e2 B2) as [_ H2].
  destruct (bounded_digits m1 e1 B1) as (Hmin & _).
  specialize (H2 ltac:(lia)).
  rewrite Z.sub_diag, Z.pow_0_r, Z.mul_1_r.
  assert (Hp : 2 ^ 1 <= 2 ^ (e2 - e1)) by (apply Z.pow_le_mono_r; lia).
  change (2 ^ 1) with 2 in Hp.
  change (2 ^ 53) with (2 ^ 52 * 2) in H1.
  nia.
Qed.

Lemma compare_finite s1 m1 e1 s2 m2 e2 :
  bounded prec emax m1 e1 = true ->
  bounded prec emax m2 e2 = true ->
  compare (S754_finite s1 m1 e1) (S754_finite s2 m2 e2)
  = Some (inject_Z (signed s1 m1) * pow2 e1 ?= inject_Z (signed s2 m2) * pow2 e2)%Q.
Proof.
  intros B1 B2. unfold compare, SFcompare. f_equal.
  destruct (Z.compare_spec e1 e2) as [He|He|He].
  - subst e2. rewrite (Qcompare_scaled _ _ e1 e1 e1) by lia.
    rewrite Z.sub_diag, Z.pow_0_r, !Z.mul_1_r.
    destruct s1, s2; reflexivity.
  - rewrite (Qcompare_scaled _ _ e1 e2 e1) by lia.
    pose proof (mantissa_lt_exponent m1 e1 m2 e2 B1 B2 He) as Hlt.
    assert (0 < 2 ^ (e2 - e1)) by (apply Z.pow_pos_nonneg; lia).
    assert (0 < 2 ^ (e1 - e1)) by (apply Z.pow_pos_nonneg; lia).
    destruct s1, s2; cbn [signed]; symmetry.
    + apply Z.compare_gt_iff. lia.
    + apply Z.compare_lt_iff. lia.
    + apply Z.compare_gt_iff. lia.
    + apply Z.compare_lt_iff. lia.
  - rewrite (Qcompare_scaled _ _ e1 e2 e2) by lia.
    pose proof (mantissa_lt_exponent m2 e2 m1 e1 B2 B1 He) as Hlt.
    assert (0 < 2 ^ (e1 - e2)) by (apply Z.pow_pos_nonneg; lia).
    assert (0 < 2 ^ (e2 - e2)) by (apply Z.pow_pos_nonneg; lia).
    destruct s1, s2; cbn [signed]; symmetry.
    + apply Z.compare_lt_iff. lia.
    + apply Z.compare_lt_iff. lia.
    + apply Z.compare_gt_iff. lia.
    + apply Z.compare_gt_iff. lia.
Qed.

Lemma Qcompare_0_scaled a e :
  (0 ?= inject_Z a * pow2 e)%Q = (0 ?= a).
Proof.
  assert (H : (0 == inject_Z 0 * pow2 e)%Q) by now rewrite Qmult_0_l.
  rewrite H, (Qcompare_scaled 0 a e e e) by lia.
  now rewrite Z.sub_diag, Z.pow_0_r, !Z.mul_1_r.
Qed.

(** On canonical finite floats the C comparison is the order of the exact
    values. *)
Lemma compare_to_Q x y qx qy :
  valid x = true -> valid y = true ->
  to_Q x = Some qx -> to_Q y = Some qy ->
  compare x y = Some (qx ?= qy)%Q.
Proof.
  intros Vx Vy Hx Hy.
  destruct x as [sx|sx| |sx mx ex], y as [sy|sy| |sy my ey];
    try discriminate; cbn [to_Q] in Hx, Hy;
    injection Hx as <-; injection Hy as <-; rewrite ?Qred_correct.
  - reflexivity.
  - rewrite Qcompare_0_scaled. now destruct sy.
  - rewrite <- Qcompare_antisym, Qcompare_0_scaled. now destruct sx.
  - now apply compare_finite.
Qed.

(** Against an [int] the comparison is exact for every finite float. *)
Lemma compare_int_to_Q x n qx :
  to_Q x = Some qx -> compare_int x n = Some (qx ?= inject_Z n)%Q.
Proof.
  intros Hx.
  destruct x as [sx|sx| |sx mx ex]; try discriminate; cbn [to_Q] in Hx;
    injection Hx as <-; cbn [compare_int]; rewrite ?Qred_correct.
  - f_equal. symmetry. apply (Qcompare_inject_Z 0 n).
  - destruct ex as [|p|p]; f_equal; unfold pow2.
    + now rewrite <- inject_Z_mult, Qcompare_inject_Z.
    + now rewrite <- inject_Z_mult, Qcompare_inject_Z.
    + unfold Qcompare, Qmult, inject_Z; cbn [Qnum Qden].
      now rewrite !Z.mul_1_r, Pos.mul_1_l.
Qed.

Lemma Qltb_lt q r : Qltb q r = true <-> (q < r)%Q.
Proof.
  unfold Qltb. rewrite Qlt_alt. destruct (q ?= r)%Q; split; congruence.
Qed.

Lemma Qltb_ge q r : Qltb q r = false <-> (r <= q)%Q.
Proof.
  unfold Qltb. rewrite Qle_alt, <- (Qcompare_antisym q r).
  destruct (q ?= r)%Q; cbn; split; congruence.
Qed.

Lemma is_lt_Qltb q r : is_lt (Some (q ?= r)%Q) = Qltb q r.
Proof. reflexivity. Qed.

Lemma is_gt_Qltb q r : is_gt (Some (q ?= r)%Q) = Qltb r q.
Proof.
  unfold Qltb. rewrite <- (Qcompare_antisym q r). cbn.
  now destruct (q ?= r)%Q.
Qed.

End FloatFacts.

(** ** Python's [<] and [>] on finite numbers *)

Section Ordering.
Import Float FloatFacts.

Variables (x : spec_float) (v : value) (qx qv : Q).
Hypothesis x_valid : valid x = true.
Hypothesis x_value : to_Q x = Some qx.
Hypothesis v_value : number v = Some qv.

Lemma operand_compare :
  match v with
  | VFloat y => compare x y
  | VInt n => compare_int x n
  | VBool b => compare_int x (Z.b2z b)
  | _ => None
  end = Some (qx ?= qv)%Q.
Proof using x_valid x_value v_value.
  destruct v as [|b|n|y|s|l|d]; try discriminate; cbn [number] in v_value.
  - injection v_value as <-. now apply compare_int_to_Q.
  - injection v_value as <-. now apply compare_int_to_Q.
  - destruct (valid y) eqn:Vy; [|discriminate]. now apply compare_to_Q.
Qed.

Lemma float_lt_number : float_lt x v = Returns (Qltb qx qv).
Proof using x_valid x_value v_value.
  pose proof operand_compare as H. rewrite <- is_lt_Qltb, <- H.
  destruct v; try discriminate; reflexivity.
Qed.

Lemma float_gt_number : float_gt x v = Returns (Qltb qv qx).
Proof using x_valid x_value v_value.
  pose proof operand_compare as H. rewrite <- is_gt_Qltb, <- H.
  destruct v; try discriminate; reflexivity.
Qed.

End Ordering.

(** ** The classifier *)

Section Classifier.
Import Float FloatFacts Sample.

Lemma sample_values :
  Forall (λ '(x, n), valid x = true ∧ to_Q x = Some (inject_Z n))
    [(f50, 50); (f150, 150); (f200, 200); (f400, 400); (f600, 600); (f700, 700)].
Proof. repeat constructor. Qed.

Lemma get_resolve d k n : get d k (VInt n) = resolve d k n.
Proof. unfold get, resolve. now destruct (d !! k). Qed.

(** The handler on finite numbers: one comparison per branch, on exact
    values. *)
Lemma analyze_price_finite data p b s :
  valid (price data) = true ->
  to_Q (price data) = Some p ->
  number (resolve (thresholds data) "buy" 200) = Some b ->
  number (resolve (thresholds data) "sell" 600) = Some s ->
  analyze_price data = Returns (classify_pl p b s).
Proof.
  intros V P B S. unfold analyze_price, classify_pl.
  rewrite !get_resolve.
  rewrite (float_lt_number _ _ p b V P B), (float_gt_number _ _ p s V P S).
  cbn. destruct (Qltb p b); [reflexivity|]. now destruct (Qltb s p).
Qed.

Lemma classify_pl_action p b s :
  item "action" (classify_pl p b s) = item "action" (classify p b s).
Proof.
  unfold classify_pl, classify. destruct (Qltb p b); [reflexivity|].
  now destruct (Qltb s p).
Qed.

(** C1, as amended: for a finite price and finite numeric thresholds, where
    the buy threshold is [thresholds["buy"]] if present else 200 and the sell
    threshold is [thresholds["sell"]] if present else 600, the handler returns
    action "buy" with reason "Cena ponizej progu zakupu" when the price is
    below the buy threshold, else action "sell" with reason "Cena powyzej
    progu sprzedazy" when it is above the sell threshold, else action "wait"
    with reason "Cena neutralna"; the action is the one the specification
    names. *)
Theorem analyze_price_classifies data p b s :
  valid (price data) = true ->
  to_Q (price data) = Some p ->
  number (resolve (thresholds data) "buy" 200) = Some b ->
  number (resolve (thresholds data) "sell" 600) = Some s ->
  analyze_price data = Returns (classify_pl p b s) ∧
  action_of (analyze_price data) = item "action" (classify p b s).
Proof.
  intros V P B S. rewrite (analyze_price_finite data p b s V P B S).
  split; [reflexivity|]. apply classify_pl_action.
Qed.

Lemma analyze_price_classifies_witness :
  analyze_price {| price := f50; thresholds := ∅ |}
    = Returns (classify_pl 50 200 600) ∧
  action_of (analyze_price {| price := f50; thresholds := ∅ |})
    = item "action" (classify 50 200 600).
Proof.
  apply (analyze_price_classifies {| price := f50; thresholds := ∅ |} 50 200 600);
    reflexivity.
Defined.

(** C1, as stated, fails: at price 50.0 with no thresholds the inputs are
    finite numbers, yet the handler does not return the dictionary with the
    reason "price below buy threshold". *)
Lemma analyze_price_reason_differs :
  valid f50 = true ∧ to_Q f50 = Some 50%Q ∧
  number (resolve ∅ "buy" 200) = Some 200%Q ∧
  number (resolve ∅ "sell" 600) = Some 600%Q ∧
  analyze_price {| price := f50; thresholds := ∅ |}
    ≠ Returns (classify 50 200 600) ∧
  reason_of (analyze_price {| price := f50; thresholds := ∅ |})
    = Some (VStr "Cena ponizej progu zakupu").
Proof. repeat split; try reflexivity. discriminate. Qed.

(** C2, as amended: when the resolved buy threshold does not exceed the
    resolved sell threshold, a price equal to either threshold yields action
    "wait"; so do 200.0 and 600.0 under the default thresholds. *)
Theorem boundary_waits data p b s :
  valid (price data) = true ->
  to_Q (price data) = Some p ->
  number (resolve (thresholds data) "buy" 200) = Some b ->
  number (resolve (thresholds data) "sell" 600) = Some s ->
  (b <= s)%Q ->
  (p == b)%Q ∨ (p == s)%Q ->
  action_of (analyze_price data) = Some (VStr "wait").
Proof.
  intros V P B S Hbs Heq. rewrite (analyze_price_finite data p b s V P B S).
  assert (Hb : (b <= p)%Q) by (destruct Heq as [->| ->]; [apply Qle_refl|exact Hbs]).
  assert (Hs : (p <= s)%Q) by (destruct Heq as [->| ->]; [exact Hbs|apply Qle_refl]).
  unfold classify_pl.
  now rewrite (proj2 (Qltb_ge p b) Hb), (proj2 (Qltb_ge s p) Hs).
Qed.

Lemma boundary_waits_witness :
  action_of (analyze_price {| price := f200; thresholds := ∅ |})
    = Some (VStr "wait") ∧
  action_of (analyze_price {| price := f600; thresholds := ∅ |})
    = Some (VStr "wait").
Proof.
  split.
  - apply (boundary_waits {| price := f200; thresholds := ∅ |} 200 200 600);
      [reflexivity|reflexivity|reflexivity|reflexivity|discriminate|].
    left. reflexivity.
  - apply (boundary_waits {| price := f600; thresholds := ∅ |} 600 200 600);
      [reflexivity|reflexivity|reflexivity|reflexivity|discriminate|].
    right. reflexivity.
Defined.

(** C2, as stated, fails: with thresholds {"buy": 700} the price 700.0 equals
    the resolved buy threshold and the handler answers "sell"; with
    thresholds {"sell": 150} the price 150.0 equals the resolved sell
    threshold and the handler answers "buy". *)
Lemma boundary_not_wait_when_inverted :
  (to_Q f700 = number (resolve {[ "buy" := VInt 700 ]} "buy" 200) ∧
   action_of (analyze_price {| price := f700;
                               thresholds := {[ "buy" := VInt 700 ]} |})
     = Some (VStr "sell")) ∧
  (to_Q f150 = number (resolve {[ "sell" := VInt 150 ]} "sell" 600) ∧
   action_of (analyze_price {| price := f150;
                               thresholds := {[ "sell" := VInt 150 ]} |})
     = Some (VStr "buy")).
Proof. repeat split; vm_compute; reflexivity. Qed.

(** C3: when the resolved thresholds are the defaults 200 and 600 (an empty
    mapping in particular), every finite price below 200 yields "buy" and
    every finite price above 600 yields "sell". *)
Theorem default_thresholds data p b s :
  valid (price data) = true ->
  to_Q (price data) = Some p ->
  number (resolve (thresholds data) "buy" 200) = Some b ->
  number (resolve (thresholds data) "sell" 600) = Some s ->
  (b == 200)%Q -> (s == 600)%Q ->
  ((p < 200)%Q -> action_of (analyze_price data) = Some (VStr "buy")) ∧
  ((600 < p)%Q -> action_of (analyze_price data) = Some (VStr "sell")).
Proof.
  intros V P B S Hb Hs. rewrite (analyze_price_finite data p b s V P B S).
  unfold classify_pl. split; intros H.
  - rewrite <- Hb in H. now rewrite (proj2 (Qltb_lt p b) H).
  - assert (Hge : (b <= p)%Q).
    { rewrite Hb. apply Qlt_le_weak. eapply Qlt_trans; [|exact H]. reflexivity. }
    rewrite <- Hs in H.
    now rewrite (proj2 (Qltb_ge p b) Hge), (proj2 (Qltb_lt s p) H).
Qed.

Lemma default_thresholds_witness :
  action_of (analyze_price {| price := f50; thresholds := ∅ |})
    = Some (VStr "buy") ∧
  action_of (analyze_price {| price := f700; thresholds := ∅ |})
    = Some (VStr "sell").
Proof.
  split.
  - apply (default_thresholds {| price := f50; thresholds := ∅ |} 50 200 600);
      reflexivity.
  - apply (default_thresholds {| price := f700; thresholds := ∅ |} 700 200 600);
      reflexivity.
Defined.

(** C4: thresholds given by the caller replace the defaults, and every
    finite price strictly between the resolved buy and sell thresholds
    yields "wait": so 400.0 under {"buy": 300, "sell": 500} and 150.0
    under {"buy": 100}. *)
Theorem between_thresholds_waits data p b s :
  valid (price data) = true ->
  to_Q (price data) = Some p ->
  number (resolve (thresholds data) "buy" 200) = Some b ->
  number (resolve (thresholds data) "sell" 600) = Some s ->
  (b < p)%Q -> (p < s)%Q ->
  action_of (analyze_price data) = Some (VStr "wait").
Proof.
  intros V P B S Hb Hs. rewrite (analyze_price_finite data p b s V P B S).
  unfold classify_pl.
  now rewrite (proj2 (Qltb_ge p b) (Qlt_le_weak _ _ Hb)),
    (proj2 (Qltb_ge s p) (Qlt_le_weak _ _ Hs)).
Qed.

Lemma between_thresholds_waits_witness :
  action_of (analyze_price
    {| price := f400;
       thresholds := {[ "buy" := VInt 300; "sell" := VInt 500 ]} |})
    = Some (VStr "wait") ∧
  action_of (analyze_price
    {| price := f150; thresholds := {[ "buy" := VInt 100 ]} |})
    = Some (VStr "wait").
Proof.
  split.
  - apply (between_thresholds_waits
             {| price := f400;
                thresholds := {[ "buy" := VInt 300; "sell" := VInt 500 ]} |}
             400 300 500); reflexivity.
  - apply (between_thresholds_waits
             {| price := f150; thresholds := {[ "buy" := VInt 100 ]} |}
             150 100 600); reflexivity.
Defined.

(** C5: the handler is total on numbers. For every price (finite or not) and
    every mapping whose resolved thresholds are numbers, in whatever order,
    it returns, without raising, a dictionary whose action is "buy",
    "sell" or "wait". *)
Theorem analyze_price_total data :
  is_number (resolve (thresholds data) "buy" 200) = true ->
  is_number (resolve (thresholds data) "sell" 600) = true ->
  ∃ r a, analyze_price data = Returns r ∧
         item "action" r = Some (VStr a) ∧
         a ∈ ["buy"; "sell"; "wait"].
Proof.
  intros B S. unfold analyze_price. rewrite !get_resolve.
  destruct (resolve (thresholds data) "buy" 200) as [|b1|n1|y1|s1|l1|d1];
    try discriminate;
    destruct (resolve (thresholds data) "sell" 600) as [|b2|n2|y2|s2|l2|d2];
    try discriminate; cbn;
    repeat match goal with
           | |- context [if ?c then _ else _] => destruct c
           end;
    do 2 eexists; (split; [reflexivity|split; [reflexivity|]]);
    repeat constructor.
Qed.

Lemma analyze_price_total_witness :
  ∃ r a, analyze_price {| price := f400;
                          thresholds := {[ "buy" := VInt 600;
                                           "sell" := VFloat f200 ]} |}
           = Returns r ∧
         item "action" r = Some (VStr a) ∧
         a ∈ ["buy"; "sell"; "wait"].
Proof.
  apply (analyze_price_total
           {| price := f400;
              thresholds := {[ "buy" := VInt 600; "sell" := VFloat f200 ]} |});
    reflexivity.
Defined.

(** Outside the numbers the comparison itself raises: a threshold that is
    a string, which the untyped [dict] field lets through, is a [TypeError]. *)
Lemma analyze_price_str_threshold x t :
  analyze_price {| price := x; thresholds := {[ "buy" := VStr t ]} |}
  = Raises TypeError.
Proof. reflexivity. Qed.

(** C10: only the "buy" and "sell" entries of the mapping are read. Two
    mappings that agree on the presence and the value of both keys give the
    same result at every price, whatever else they hold. *)
Theorem analyze_price_reads_buy_sell x (t1 t2 : gmap string value) :
  t1 !! "buy" = t2 !! "buy" ->
  t1 !! "sell" = t2 !! "sell" ->
  analyze_price {| price := x; thresholds := t1 |}
  = analyze_price {| price := x; thresholds := t2 |}.
Proof.
  intros B S. unfold analyze_price, get; cbn [price thresholds].
  now rewrite B, S.
Qed.

Lemma analyze_price_reads_buy_sell_witness :
  analyze_price {| price := f400; thresholds := {[ "buy" := VInt 300 ]} |}
  = analyze_price {| price := f400;
                     thresholds := {[ "buy" := VInt 300;
                                      "hold" := VStr "n/a";
                                      "limit" := VNone ]} |}.
Proof.
  apply (analyze_price_reads_buy_sell f400
           {[ "buy" := VInt 300 ]}
           {[ "buy" := VInt 300; "hold" := VStr "n/a"; "limit" := VNone ]});
    reflexivity.
Defined.

End Classifier.

(** ** The bearer-token dependency *)

Section Token.

Variable secret : string.
Variable decode : string -> string -> list string -> outcome (gmap string value).
Variable creds : HTTPAuthorizationCredentials.

Local Abbreviation verified := (decode (credentials creds) secret ["HS256"]).

Lemma get_current_user_verified payload :
  verified = Returns payload ->
  get_current_user secret decode creds
  = match payload !! "sub" with
    | None | Some VNone => Raises (HTTPException 401 (VStr "Nieprawidłowy token"))
    | Some sub => Returns sub
    end.
Proof using Type.
  intros Hv. unfold get_current_user, get. rewrite Hv. cbn.
  destruct (payload !! "sub") as [[]|]; reflexivity.
Qed.

Lemma get_current_user_raised e :
  verified = Raises e ->
  get_current_user secret decode creds
  = if is_JWTError e then Raises (HTTPException 403 (VStr "Błąd autoryzacji"))
    else Raises e.
Proof using Type.
  intros Hv. unfold get_current_user. rewrite Hv. reflexivity.
Qed.

(** C7: the two failures of token verification are kept apart. When the
    token verifies and its payload has no "sub" entry the dependency raises
    [HTTPException] with status 401; when verification raises [JWTError]
    (bad signature, malformed token) it raises [HTTPException] with status
    403; when the token verifies and [payload.get("sub")] is a value (not
    [None]), that value is the caller identity. *)
Theorem token_failure_split :
  (∀ payload,
     verified = Returns payload -> payload !! "sub" = None ->
     get_current_user secret decode creds
     = Raises (HTTPException 401 (VStr "Nieprawidłowy token"))) ∧
  (verified = Raises JWTError ->
     get_current_user secret decode creds
     = Raises (HTTPException 403 (VStr "Błąd autoryzacji"))) ∧
  (∀ payload sub,
     verified = Returns payload -> payload !! "sub" = Some sub -> sub ≠ VNone ->
     get_current_user secret decode creds = Returns sub).
Proof using Type.
  split; [|split].
  - intros payload Hv Hsub. now rewrite (get_current_user_verified payload Hv), Hsub.
  - intros Hv. now rewrite (get_current_user_raised JWTError Hv).
  - intros payload sub Hv Hsub Hne.
    rewrite (get_current_user_verified payload Hv), Hsub.
    now destruct sub.
Qed.

End Token.

Lemma token_failure_split_witness :
  get_current_user "secret" Stub.decode (Stub.bearer "signed.without.sub")
    = Raises (HTTPException 401 (VStr "Nieprawidłowy token")) ∧
  get_current_user "secret" Stub.decode (Stub.bearer "forged")
    = Raises (HTTPException 403 (VStr "Błąd autoryzacji")) ∧
  get_current_user "secret" Stub.decode (Stub.bearer "signed.with.sub")
    = Returns (VStr "user-1").
Proof.
  split; [|split].
  - apply (proj1 (token_failure_split "secret" Stub.decode
                    (Stub.bearer "signed.without.sub"))
             {[ "role" := VStr "authenticated" ]}); reflexivity.
  - apply (proj1 (proj2 (token_failure_split "secret" Stub.decode
                           (Stub.bearer "forged")))); reflexivity.
  - apply (proj2 (proj2 (token_failure_split "secret" Stub.decode
                           (Stub.bearer "signed.with.sub")))
             {[ "sub" := VStr "user-1"; "role" := VStr "authenticated" ]});
      [reflexivity|reflexivity|discriminate].
Defined.

(** A verified payload whose subject is JSON [null] is treated as one
    without a subject. *)
Lemma get_current_user_null_sub secret decode creds payload :
  decode (credentials creds) secret ["HS256"] = Returns payload ->
  payload !! "sub" = Some VNone ->
  get_current_user secret decode creds
  = Raises (HTTPException 401 (VStr "Nieprawidłowy token")).
Proof.
  intros Hv Hsub. now rewrite (get_current_user_verified _ _ _ payload Hv), Hsub.
Qed.

(** ** The forwarders *)

Section Forwarders.

Variables url key : string.
Variable upstream : Request -> Response.
Variable now : string.
Variable str : value -> string.
Variable phrase : Z -> option string.

Ltac unfold_handler :=
  unfold register, login, add_decision, upload_data, get_user_decisions,
    get_user_uploads, requests_post, requests_get, mbind, io_bind, mret,
    io_ret, raise, lift, json;
  cbn -[String.append Z.eqb json_compliant raised].

Ltac run_store :=
  intros; unfold_handler;
  match goal with
  | |- context [upstream ?r] => exists r
  end;
  cbn [json_body];
  repeat match goal with
         | |- context [if json_compliant ?v then _ else _] =>
             destruct (json_compliant v)
         | |- context [status_code ?r =? ?n] =>
             destruct (status_code r =? n)
         end;
  repeat split; reflexivity.

(** The body of a [/decision] or [/upload] call can be sent when the
    subject and the floats of the record are free of NaN and infinities. *)
Lemma decision_body_compliant (data : Decision) (user_id : value) :
  json_compliant (VDict [("user_id", user_id);
                         ("timestamp", VStr now);
                         ("action", VStr (action data));
                         ("reason", VStr (reason data));
                         ("price", VFloat (decision_price data));
                         ("volume", VFloat (volume data))])
  = json_compliant user_id &&
    (Float.is_finite (decision_price data) && Float.is_finite (volume data)).
Proof using Type. cbn. now rewrite andb_true_r. Qed.

Lemma upload_body_compliant (data : FileUpload) (user_id : value) :
  json_compliant (VDict [("user_id", user_id);
                         ("uploaded_at", VStr now);
                         ("filename", VStr (filename data));
                         ("raw_data", VDict (raw_data data))])
  = json_compliant user_id && json_compliant (VDict (raw_data data)).
Proof using Type. cbn. now rewrite andb_true_r. Qed.

(** Each forwarder makes exactly one call and decides on the status of its
    response alone. *)
Lemma add_decision_run data user_id log :
  ∃ req body,
    snd (add_decision url key upstream now data user_id log) = log ++ [req] ∧
    json_body req = Some body ∧
    json_compliant body
    = json_compliant user_id &&
      (Float.is_finite (decision_price data) && Float.is_finite (volume data)) ∧
    fst (add_decision url key upstream now data user_id log)
    = if json_compliant body then
        if status_code (upstream req) =? 201
        then Returns (VDict [("status", VStr "decision saved")])
        else Raises (HTTPException (status_code (upstream req))
                       (VStr (text (upstream req))))
      else Raises InvalidJSONError.
Proof using Type.
  intros; unfold_handler.
  match goal with
  | |- context [upstream ?r] =>
      match r with
      | context [Some ?b] => exists r, b
      end
  end.
  cbn [json_body]. rewrite decision_body_compliant.
  destruct (json_compliant user_id && _);
    [destruct (status_code _ =? 201)|]; repeat split; reflexivity.
Qed.

Lemma upload_data_run data user_id log :
  ∃ req body,
    snd (upload_data url key upstream now data user_id log) = log ++ [req] ∧
    json_body req = Some body ∧
    json_compliant body
    = json_compliant user_id && json_compliant (VDict (raw_data data)) ∧
    fst (upload_data url key upstream now data user_id log)
    = if json_compliant body then
        if status_code (upstream req) =? 201
        then Returns (VDict [("status", VStr "upload saved")])
        else Raises (HTTPException (status_code (upstream req))
                       (VStr (text (upstream req))))
      else Raises InvalidJSONError.
Proof using Type.
  intros; unfold_handler.
  match goal with
  | |- context [upstream ?r] =>
      match r with
      | context [Some ?b] => exists r, b
      end
  end.
  cbn [json_body]. rewrite upload_body_compliant.
  destruct (json_compliant user_id && _);
    [destruct (status_code _ =? 201)|]; repeat split; reflexivity.
Qed.

Lemma get_user_decisions_run user_id log :
  ∃ req, snd (get_user_decisions url key upstream str user_id log) = log ++ [req] ∧
    fst (get_user_decisions url key upstream str user_id log)
    = if status_code (upstream req) =? 200
      then json (upstream req)
      else Raises (HTTPException (status_code (upstream req))
                     (VStr (text (upstream req)))).
Proof using Type. run_store. Qed.

Lemma get_user_uploads_run user_id log :
  ∃ req, snd (get_user_uploads url key upstream str user_id log) = log ++ [req] ∧
    fst (get_user_uploads url key upstream str user_id log)
    = if status_code (upstream req) =? 200
      then json (upstream req)
      else Raises (HTTPException (status_code (upstream req))
                     (VStr (text (upstream req)))).
Proof using Type. run_store. Qed.

Lemma raised_detail status detail :
  detail ≠ VNone ->
  raised phrase status detail = Raises (A:=value) (HTTPException status detail).
Proof using Type.
  intros Hne. unfold raised, http_exception. now destruct detail.
Qed.

Ltac run_auth :=
  intros; unfold_handler; cbn -[String.append Z.eqb raised];
  match goal with
  | |- context [upstream ?r] => exists r
  end;
  destruct (status_code _ =? 200), (decoded _) as [body|];
  cbn -[raised];
  first [split; reflexivity
        |destruct (raised phrase _ _); split; reflexivity].

Lemma register_run data log :
  ∃ req, snd (register url key upstream phrase data log) = log ++ [req] ∧
    fst (register url key upstream phrase data log)
    = match decoded (upstream req) with
      | None => Raises JSONDecodeError
      | Some body =>
          if status_code (upstream req) =? 200 then Returns body
          else raised phrase (status_code (upstream req)) body
      end.
Proof using Type. run_auth. Qed.

Lemma login_run data log :
  ∃ req, snd (login url key upstream phrase data log) = log ++ [req] ∧
    fst (login url key upstream phrase data log)
    = match decoded (upstream req) with
      | None => Raises JSONDecodeError
      | Some body =>
          if status_code (upstream req) =? 200 then Returns body
          else raised phrase (status_code (upstream req)) body
      end.
Proof using Type. run_auth. Qed.

(** X16: the store endpoints relay a failure as it came. When the body of a
    write can be serialised (no NaN or infinity in the subject, the price,
    the volume or the uploaded data) and the upstream status is outside
    200..299, each of them makes one call and raises an [HTTPException]
    with the status and the text of the response. *)
Lemma store_failure_relayed data upload_ user_id log :
  (∀ req, ¬ (200 <= status_code (upstream req) < 300)) ->
  json_compliant user_id = true ->
  Float.is_finite (decision_price data) = true ->
  Float.is_finite (volume data) = true ->
  json_compliant (VDict (raw_data upload_)) = true ->
  Forall (λ m : io value,
            ∃ req, snd (m log) = log ++ [req] ∧
                   fst (m log) = Raises (HTTPException (status_code (upstream req))
                                           (VStr (text (upstream req)))))
    [add_decision url key upstream now data user_id;
     get_user_decisions url key upstream str user_id;
     upload_data url key upstream now upload_ user_id;
     get_user_uploads url key upstream str user_id].
Proof using Type.
  intros Hfail Hu Hp Hv Hraw.
  assert (H201 : ∀ req, (status_code (upstream req) =? 201) = false)
    by (intros req; specialize (Hfail req); lia).
  assert (H200 : ∀ req, (status_code (upstream req) =? 200) = false)
    by (intros req; specialize (Hfail req); lia).
  repeat constructor.
  - destruct (add_decision_run data user_id log) as (req & body & Hl & _ & Hc & Hr).
    exists req. now rewrite Hl, Hr, Hc, Hu, Hp, Hv, H201.
  - destruct (get_user_decisions_run user_id log) as (req & Hl & Hr).
    exists req. now rewrite Hl, Hr, H200.
  - destruct (upload_data_run upload_ user_id log) as (req & body & Hl & _ & Hc & Hr).
    exists req. now rewrite Hl, Hr, Hc, Hu, Hraw, H201.
  - destruct (get_user_uploads_run user_id log) as (req & Hl & Hr).
    exists req. now rewrite Hl, Hr, H200.
Qed.

(** X17: the auth endpoints relay a failure whose body is JSON other than
    [null]: one call, and an [HTTPException] with the status of the
    response and its decoded body. *)
Lemma auth_failure_relayed data log :
  (∀ req, ¬ (200 <= status_code (upstream req) < 300)) ->
  (∀ req, ∃ body, decoded (upstream req) = Some body ∧ body ≠ VNone) ->
  Forall (λ m : io value,
            ∃ req body, snd (m log) = log ++ [req] ∧
                        decoded (upstream req) = Some body ∧
                        fst (m log) = Raises (HTTPException (status_code (upstream req)) body))
    [register url key upstream phrase data; login url key upstream phrase data].
Proof using Type.
  intros Hfail Hjson.
  assert (H200 : ∀ req, (status_code (upstream req) =? 200) = false)
    by (intros req; specialize (Hfail req); lia).
  repeat constructor.
  - destruct (register_run data log) as (req & Hl & Hr).
    destruct (Hjson req) as (body & Hb & Hne). exists req, body.
    now rewrite Hl, Hr, Hb, H200, (raised_detail _ _ Hne).
  - destruct (login_run data log) as (req & Hl & Hr).
    destruct (Hjson req) as (body & Hb & Hne). exists req, body.
    now rewrite Hl, Hr, Hb, H200, (raised_detail _ _ Hne).
Qed.

(** A failure whose body is JSON [null] has no detail to relay: the
    exception carries the phrase of the status in its place, and for a
    status outside [http.HTTPStatus] building it is a [ValueError]. *)
Lemma auth_failure_null_body data log :
  (∀ req, (status_code (upstream req) =? 200) = false) ->
  (∀ req, decoded (upstream req) = Some VNone) ->
  ∃ req, snd (register url key upstream phrase data log) = log ++ [req] ∧
    fst (register url key upstream phrase data log)
    = match phrase (status_code (upstream req)) with
      | Some reason_ => Raises (HTTPException (status_code (upstream req))
                                  (VStr reason_))
      | None => Raises ValueError
      end.
Proof using Type.
  intros H200 Hnull. destruct (register_run data log) as (req & Hl & Hr).
  exists req. split; [exact Hl|]. rewrite Hr, Hnull, H200.
  unfold raised, http_exception. cbn. now destruct (phrase _).
Qed.

(** C8, where the handlers part from it: when the body of the upstream
    response is not JSON, [/register] and [/login] raise [JSONDecodeError]
    while building the [HTTPException], whatever the upstream status, so
    neither the status nor the body reaches the caller; the outbound call
    was made once. *)
Theorem auth_failure_not_relayed data log :
  (∀ req, decoded (upstream req) = None) ->
  (∃ req, register url key upstream phrase data log
          = (Raises JSONDecodeError, log ++ [req])) ∧
  (∃ req, login url key upstream phrase data log
          = (Raises JSONDecodeError, log ++ [req])).
Proof using Type.
  intros Hjson. split.
  - destruct (register_run data log) as (req & Hl & Hr).
    exists req. rewrite Hjson in Hr. rewrite <- Hl, <- Hr.
    now destruct (register url key upstream phrase data log).
  - destruct (login_run data log) as (req & Hl & Hr).
    exists req. rewrite Hjson in Hr. rewrite <- Hl, <- Hr.
    now destruct (login url key upstream phrase data log).
Qed.

(** C9: [/decision] and [/upload] make one call to [requests.post]. When its
    body can be serialised the call reaches the service, and then a status
    of exactly 201 gives the fixed bodies {"status": "decision saved"} and
    {"status": "upload saved"}, whatever the response held, and any other
    status raises an [HTTPException] with that status. A body that holds a
    NaN or an infinity is refused by [requests] before it is sent
    ([InvalidJSONError]), and no status comes back. *)
Theorem created_fixed_reply data upload_ user_id log :
  (∃ req body,
     snd (add_decision url key upstream now data user_id log) = log ++ [req] ∧
     json_body req = Some body ∧
     fst (add_decision url key upstream now data user_id log)
     = if json_compliant body then
         if status_code (upstream req) =? 201
         then Returns (VDict [("status", VStr "decision saved")])
         else Raises (HTTPException (status_code (upstream req))
                        (VStr (text (upstream req))))
       else Raises InvalidJSONError) ∧
  (∃ req body,
     snd (upload_data url key upstream now upload_ user_id log) = log ++ [req] ∧
     json_body req = Some body ∧
     fst (upload_data url key upstream now upload_ user_id log)
     = if json_compliant body then
         if status_code (upstream req) =? 201
         then Returns (VDict [("status", VStr "upload saved")])
         else Raises (HTTPException (status_code (upstream req))
                        (VStr (text (upstream req))))
       else Raises InvalidJSONError).
Proof using Type.
  split.
  - destruct (add_decision_run data user_id log) as (req & body & Hl & Hb & _ & Hr).
    now exists req, body.
  - destruct (upload_data_run upload_ user_id log) as (req & body & Hl & Hb & _ & Hr).
    now exists req, body.
Qed.

End Forwarders.

Lemma auth_failure_not_relayed_witness :
  (∃ req, register "https://project.supabase.co" "anon-key"
            (λ _, Stub.bad_gateway) Stub.phrase Stub.user []
          = (Raises JSONDecodeError, [] ++ [req])) ∧
  (∃ req, login "https://project.supabase.co" "anon-key"
            (λ _, Stub.bad_gateway) Stub.phrase Stub.user []
          = (Raises JSONDecodeError, [] ++ [req])).
Proof.
  apply (auth_failure_not_relayed "https://project.supabase.co" "anon-key"
           (λ _, Stub.bad_gateway) Stub.phrase Stub.user []).
  intros req. reflexivity.
Defined.

(** On the same 502 answer the store endpoints do relay status and text. *)
Example decision_relays_bad_gateway :
  fst (run (serve (Stub.world Stub.bad_gateway)
              (PostDecision Stub.decision (Stub.bearer "signed.with.sub"))))
  = Raises (HTTPException 502 (VStr "<html><body>502 Bad Gateway</body></html>")).
Proof. reflexivity. Qed.

Example register_drops_bad_gateway :
  fst (run (serve (Stub.world Stub.bad_gateway) (PostRegister Stub.user)))
  = Raises JSONDecodeError.
Proof. reflexivity. Qed.

Example decision_created :
  fst (run (serve (Stub.world Stub.created)
              (PostDecision Stub.decision (Stub.bearer "signed.with.sub"))))
  = Returns (VDict [("status", VStr "decision saved")]).
Proof. reflexivity. Qed.

Example upload_created :
  run (serve (Stub.world Stub.created)
         (PostUpload Stub.upload (Stub.bearer "signed.with.sub")))
  = (Returns (VDict [("status", VStr "upload saved")]),
     [{| method := POST;
         url := "https://project.supabase.co/rest/v1/uploads";
         headers := [("apikey", "anon-key");
                     ("Authorization", "Bearer anon-key");
                     ("Content-Type", "application/json")];
         json_body := Some (VDict [("user_id", VStr "user-1");
                                   ("uploaded_at", VStr "2024-05-01T12:00:00");
                                   ("filename", VStr "prices.csv");
                                   ("raw_data", VDict [("rows", VInt 3)])]) |}]).
Proof. reflexivity. Qed.

Example register_unprocessable :
  fst (run (serve (Stub.world Stub.unprocessable) (PostRegister Stub.user)))
  = Raises (HTTPException 422 (VDict [("code", VInt 422)])).
Proof. reflexivity. Qed.

Example decisions_forged_token :
  run (serve (Stub.world Stub.ok_empty) (GetDecisions (Stub.bearer "forged")))
  = (Raises (HTTPException 403 (VStr "Błąd autoryzacji")), []).
Proof. reflexivity. Qed.

Example me_verified :
  run (serve (Stub.world Stub.ok_empty) (GetMe (Stub.bearer "signed.with.sub")))
  = (Returns (VDict [("user_id", VStr "user-1")]), []).
Proof. reflexivity. Qed.

(** ** The application *)

Section EqualInputs.
Import Float FloatFacts.






End EqualInputs.



(** A request whose token is refused never reaches the external service. *)
Lemma rejected_before_upstream (w : World) creds handler log e :
  get_current_user (env_jwt_secret w) (env_jwt_decode w) creds = Raises e ->
  depends_user (env_jwt_secret w) (env_jwt_decode w) creds handler log
  = (Raises e, log).
Proof.
  intros H. unfold depends_user, lift, mbind, io_bind. now rewrite H.
Qed.

(** ** The shape of the classifier *)

Section ClassifierShape.
Import Float FloatFacts Sample.

Variable data : AnalyzeRequest.
Variables p b s : Q.
Hypothesis price_valid : valid (price data) = true.
Hypothesis price_value : to_Q (price data) = Some p.
Hypothesis buy_value : number (resolve (thresholds data) "buy" 200) = Some b.
Hypothesis sell_value : number (resolve (thresholds data) "sell" 600) = Some s.

(** X1: each answer is given on exactly one region of prices: "buy" below the
    buy threshold; "sell" at or above the buy threshold and above the sell
    threshold; "wait" from the buy threshold to the sell threshold, both
    included. *)
Theorem action_regions :
  (action_of (analyze_price data) = Some (VStr "buy") ↔ (p < b)%Q) ∧
  (action_of (analyze_price data) = Some (VStr "sell") ↔ (b <= p)%Q ∧ (s < p)%Q) ∧
  (action_of (analyze_price data) = Some (VStr "wait") ↔ (b <= p)%Q ∧ (p <= s)%Q).
Proof using price_valid price_value buy_value sell_value.
  rewrite (analyze_price_finite data p b s price_valid price_value buy_value sell_value).
  unfold classify_pl.
  destruct (Qltb p b) eqn:Eb; [apply Qltb_lt in Eb|apply Qltb_ge in Eb];
    (destruct (Qltb s p) eqn:Es; [apply Qltb_lt in Es|apply Qltb_ge in Es]);
    cbn; repeat split; try discriminate; try tauto;
    intros; repeat match goal with H : _ ∧ _ |- _ => destruct H end;
    exfalso;
    repeat match goal with
           | H : (?x < ?y)%Q, H' : (?y <= ?x)%Q |- _ => exact (Qlt_not_le _ _ H H')
           end.
Qed.

(** X2: when the buy threshold lies above the sell threshold there is no
    "wait" region: the answer is "buy" below the buy threshold and "sell"
    from it on. *)
Theorem inverted_never_waits :
  (s < b)%Q ->
  action_of (analyze_price data)
  = Some (VStr (if Qltb p b then "buy" else "sell")).
Proof using price_valid price_value buy_value sell_value.
  intros Hinv.
  rewrite (analyze_price_finite data p b s price_valid price_value buy_value sell_value).
  unfold classify_pl.
  destruct (Qltb p b) eqn:Eb; [reflexivity|apply Qltb_ge in Eb].
  assert (Hs : (s < p)%Q) by (eapply Qlt_le_trans; eassumption).
  now rewrite (proj2 (Qltb_lt s p) Hs).
Qed.

End ClassifierShape.

Section ClassifierEdges.
Import Float FloatFacts Sample.

Lemma action_regions_witness :
  let data := {| price := f400;
                 thresholds := {[ "buy" := VInt 300; "sell" := VInt 500 ]} |} in
  (action_of (analyze_price data) = Some (VStr "buy") ↔ (400 < 300)%Q) ∧
  (action_of (analyze_price data) = Some (VStr "sell")
     ↔ (300 <= 400)%Q ∧ (500 < 400)%Q) ∧
  (action_of (analyze_price data) = Some (VStr "wait")
     ↔ (300 <= 400)%Q ∧ (400 <= 500)%Q).
Proof.
  apply (action_regions
           {| price := f400;
              thresholds := {[ "buy" := VInt 300; "sell" := VInt 500 ]} |}
           400 300 500); reflexivity.
Defined.

Lemma inverted_never_waits_witness :
  action_of (analyze_price
    {| price := f400;
       thresholds := {[ "buy" := VInt 600; "sell" := VInt 200 ]} |})
  = Some (VStr (if Qltb 400 600 then "buy" else "sell")).
Proof.
  apply (inverted_never_waits
           {| price := f400;
              thresholds := {[ "buy" := VInt 600; "sell" := VInt 200 ]} |}
           400 600 200); reflexivity.
Defined.

(** X3: a higher price never moves the answer back toward "buy": under the
    same thresholds, if the higher price gets "buy" so does the lower one,
    and if the lower price gets "sell" so does the higher one. This holds
    for inverted thresholds too. *)
Theorem action_monotone x1 x2 (t : gmap string value) p1 p2 b s :
  valid x1 = true -> to_Q x1 = Some p1 ->
  valid x2 = true -> to_Q x2 = Some p2 ->
  number (resolve t "buy" 200) = Some b ->
  number (resolve t "sell" 600) = Some s ->
  (p1 <= p2)%Q ->
  (action_of (analyze_price {| price := x2; thresholds := t |}) = Some (VStr "buy") ->
   action_of (analyze_price {| price := x1; thresholds := t |}) = Some (VStr "buy")) ∧
  (action_of (analyze_price {| price := x1; thresholds := t |}) = Some (VStr "sell") ->
   action_of (analyze_price {| price := x2; thresholds := t |}) = Some (VStr "sell")).
Proof.
  intros V1 P1 V2 P2 B S Hle.
  rewrite (analyze_price_finite {| price := x1; thresholds := t |} p1 b s V1 P1 B S).
  rewrite (analyze_price_finite {| price := x2; thresholds := t |} p2 b s V2 P2 B S).
  unfold classify_pl.
  destruct (Qltb p1 b) eqn:E1; [apply Qltb_lt in E1|apply Qltb_ge in E1];
    (destruct (Qltb p2 b) eqn:E2; [apply Qltb_lt in E2|apply Qltb_ge in E2]);
    (destruct (Qltb s p1) eqn:S1; [apply Qltb_lt in S1|apply Qltb_ge in S1]);
    (destruct (Qltb s p2) eqn:S2; [apply Qltb_lt in S2|apply Qltb_ge in S2]);
    cbn; split; intros H; try discriminate H; try reflexivity; exfalso.
  all: try (apply (Qlt_not_le _ _ E2); eapply Qle_trans; eassumption).
  all: try (apply (Qlt_not_le _ _ S1); eapply Qle_trans; eassumption).
Qed.

Lemma action_monotone_witness :
  let inverted : gmap string value := {[ "buy" := VInt 600; "sell" := VInt 200 ]} in
  action_of (analyze_price {| price := f50; thresholds := ∅ |}) = Some (VStr "buy") ∧
  action_of (analyze_price {| price := f800; thresholds := ∅ |}) = Some (VStr "sell") ∧
  action_of (analyze_price {| price := f150; thresholds := inverted |})
    = Some (VStr "buy") ∧
  action_of (analyze_price {| price := f700; thresholds := inverted |})
    = Some (VStr "sell").
Proof.
  cbn zeta. split; [|split; [|split]].
  - refine (proj1 (action_monotone f50 f150 ∅ 50 150 200 600 _ _ _ _ _ _ _) _);
      first [reflexivity|discriminate].
  - refine (proj2 (action_monotone f700 f800 ∅ 700 800 200 600 _ _ _ _ _ _ _) _);
      first [reflexivity|discriminate].
  - refine (proj1 (action_monotone f150 f400
                    {[ "buy" := VInt 600; "sell" := VInt 200 ]} 150 400 600 200 _ _ _ _ _ _ _) _);
      first [reflexivity|discriminate].
  - refine (proj2 (action_monotone f600 f700
                    {[ "buy" := VInt 600; "sell" := VInt 200 ]} 600 700 600 200 _ _ _ _ _ _ _) _);
      first [reflexivity|discriminate].
Defined.

(** X4: the sell threshold is looked at only when the price is not below the
    buy threshold: a price below a numeric buy threshold gets "buy"
    whatever is stored under "sell", a string or [None] included. *)
Theorem buy_short_circuits data p b :
  valid (price data) = true ->
  to_Q (price data) = Some p ->
  number (resolve (thresholds data) "buy" 200) = Some b ->
  (p < b)%Q ->
  analyze_price data
  = Returns (VDict [("action", VStr "buy");
                    ("reason", VStr "Cena ponizej progu zakupu")]).
Proof.
  intros V P B Hlt. unfold analyze_price. rewrite (get_resolve _ "buy").
  rewrite (float_lt_number _ _ p b V P B), (proj2 (Qltb_lt p b) Hlt).
  reflexivity.
Qed.

Lemma buy_short_circuits_witness :
  analyze_price {| price := f50; thresholds := {[ "sell" := VStr "n/a" ]} |}
  = Returns (VDict [("action", VStr "buy");
                    ("reason", VStr "Cena ponizej progu zakupu")]).
Proof.
  apply (buy_short_circuits
           {| price := f50; thresholds := {[ "sell" := VStr "n/a" ]} |} 50 200);
    reflexivity.
Defined.

(** X5: the only exception the handler raises is [TypeError], and it raises
    exactly when the buy threshold is not a number, or the price is not
    below it and the sell threshold is not a number. A key present with the
    value [None] does not fall back to the default. *)
Theorem analyze_price_raises data :
  let buy := resolve (thresholds data) "buy" 200 in
  let sell := resolve (thresholds data) "sell" 600 in
  (∀ e, analyze_price data = Raises e -> e = TypeError) ∧
  (analyze_price data = Raises TypeError ↔
   is_number buy = false ∨
   (float_lt (price data) buy = Returns false ∧ is_number sell = false)).
Proof.
  cbn zeta. unfold analyze_price. rewrite !get_resolve.
  destruct (resolve (thresholds data) "buy" 200) as [|b1|n1|y1|s1|l1|d1];
    destruct (resolve (thresholds data) "sell" 600) as [|b2|n2|y2|s2|l2|d2];
    cbn;
    repeat match goal with
           | |- context [is_lt ?c] => destruct (is_lt c)
           | |- context [is_gt ?c] => destruct (is_gt c)
           end;
    cbn; (split; [intros e H; congruence|]);
    (split; [intros H; try discriminate H; auto|
             intros [H|[H1 H2]]; try discriminate; reflexivity]).
Qed.

(** X6: a NaN price gets "wait" under any numeric thresholds: both
    comparisons are false. *)
Theorem nan_price_waits (t : gmap string value) :
  is_number (resolve t "buy" 200) = true ->
  is_number (resolve t "sell" 600) = true ->
  action_of (analyze_price {| price := S754_nan; thresholds := t |})
  = Some (VStr "wait").
Proof.
  intros B S. unfold analyze_price; cbn [price thresholds]. rewrite !get_resolve.
  destruct (resolve t "buy" 200) as [|b1|n1|y1|s1|l1|d1]; try discriminate;
    destruct (resolve t "sell" 600) as [|b2|n2|y2|s2|l2|d2]; try discriminate;
    reflexivity.
Qed.

Lemma nan_price_waits_witness :
  action_of (analyze_price {| price := S754_nan;
                              thresholds := {[ "buy" := VFloat f150 ]} |})
  = Some (VStr "wait").
Proof.
  apply (nan_price_waits {[ "buy" := VFloat f150 ]}); reflexivity.
Defined.

(** X7: an infinite price is beyond every finite threshold: minus infinity gets
    "buy", plus infinity gets "sell". *)
Theorem infinite_price (negative : bool) (t : gmap string value) b s :
  number (resolve t "buy" 200) = Some b ->
  number (resolve t "sell" 600) = Some s ->
  action_of (analyze_price {| price := S754_infinity negative; thresholds := t |})
  = Some (VStr (if negative then "buy" else "sell")).
Proof.
  intros B S. unfold analyze_price; cbn [price thresholds]. rewrite !get_resolve.
  destruct (resolve t "buy" 200) as [|b1|n1|y1|s1|l1|d1]; try discriminate;
    destruct (resolve t "sell" 600) as [|b2|n2|y2|s2|l2|d2]; try discriminate;
    cbn [number] in B, S;
    repeat match goal with
           | H : (if valid ?y then _ else _) = Some _ |- _ =>
               destruct (valid y); [|discriminate H];
               destruct y; try discriminate H
           end;
    destruct negative; reflexivity.
Qed.

Lemma infinite_price_witness :
  action_of (analyze_price {| price := S754_infinity false;
                              thresholds := {[ "sell" := VFloat f700 ]} |})
  = Some (VStr "sell").
Proof.
  apply (infinite_price false {[ "sell" := VFloat f700 ]} 200 700); reflexivity.
Defined.

End ClassifierEdges.

(** ** The identity handed to the handlers *)

(** X8: whatever the decoder does, the dependency ends in one of four ways: it
    returns the subject of the verified payload, which is never [None]; it
    raises 401; it raises 403; or it lets through, unchanged, an exception
    of the decoder that is not a [JWTError]. *)
Theorem get_current_user_outcomes secret decode creds :
  match get_current_user secret decode creds with
  | Returns uid =>
      uid ≠ VNone ∧
      ∃ payload, decode (credentials creds) secret ["HS256"] = Returns payload ∧
                 payload !! "sub" = Some uid
  | Raises e =>
      e = HTTPException 401 (VStr "Nieprawidłowy token") ∨
      e = HTTPException 403 (VStr "Błąd autoryzacji") ∨
      (decode (credentials creds) secret ["HS256"] = Raises e ∧
       is_JWTError e = false)
  end.
Proof.
  destruct (decode (credentials creds) secret ["HS256"]) as [payload|e] eqn:Hv.
  - rewrite (get_current_user_verified secret decode creds payload Hv).
    destruct (payload !! "sub") as [[]|] eqn:Hsub; eauto;
      (split; [discriminate|eauto]).
  - rewrite (get_current_user_raised secret decode creds e Hv).
    destruct (is_JWTError e) eqn:He; eauto.
Qed.

(** ** Routing and outbound calls *)

Section Routes.

Variables base key : string.
Variable upstream : Request -> Response.
Variable now : string.
Variable str : value -> string.
Variable phrase : Z -> option string.

Ltac sends :=
  intros;
  unfold register, login, add_decision, upload_data, get_user_decisions,
    get_user_uploads, requests_post, requests_get, mbind, io_bind, mret,
    io_ret, raise, lift, json;
  cbn -[String.append Z.eqb raised];
  repeat match goal with
         | |- context [if ?c then _ else _] =>
             destruct c; cbn -[String.append Z.eqb raised]
         | |- context [decoded ?r] =>
             destruct (decoded r); cbn -[String.append Z.eqb raised]
         | |- context [raised ?f ?n ?d] =>
             destruct (raised (A:=value) f n d); cbn -[String.append Z.eqb raised]
         end;
  reflexivity.

Lemma register_sends data log :
  snd (register base key upstream phrase data log)
  = log ++ [{| method := POST;
               url := base +:+ "/auth/v1/signup";
               headers := [("apikey", key); ("Content-Type", "application/json")];
               json_body := Some (VDict [("email", VStr (email data));
                                         ("password", VStr (password data))]) |}].
Proof using Type. sends. Qed.

Lemma login_sends data log :
  snd (login base key upstream phrase data log)
  = log ++ [{| method := POST;
               url := base +:+ "/auth/v1/token?grant_type=password";
               headers := [("apikey", key); ("Content-Type", "application/json")];
               json_body := Some (VDict [("email", VStr (email data));
                                         ("password", VStr (password data))]) |}].
Proof using Type. sends. Qed.

Lemma add_decision_sends data uid log :
  snd (add_decision base key upstream now data uid log)
  = log ++ [{| method := POST;
               url := base +:+ "/rest/v1/decisions";
               headers := [("apikey", key);
                           ("Authorization", "Bearer " +:+ key);
                           ("Content-Type", "application/json")];
               json_body := Some (VDict [("user_id", uid);
                                         ("timestamp", VStr now);
                                         ("action", VStr (action data));
                                         ("reason", VStr (reason data));
                                         ("price", VFloat (decision_price data));
                                         ("volume", VFloat (volume data))]) |}].
Proof using Type. sends. Qed.

Lemma upload_data_sends data uid log :
  snd (upload_data base key upstream now data uid log)
  = log ++ [{| method := POST;
               url := base +:+ "/rest/v1/uploads";
               headers := [("apikey", key);
                           ("Authorization", "Bearer " +:+ key);
                           ("Content-Type", "application/json")];
               json_body := Some (VDict [("user_id", uid);
                                         ("uploaded_at", VStr now);
                                         ("filename", VStr (filename data));
                                         ("raw_data", VDict (raw_data data))]) |}].
Proof using Type. sends. Qed.

Lemma get_user_decisions_sends uid log :
  snd (get_user_decisions base key upstream str uid log)
  = log ++ [{| method := GET;
               url := base +:+ "/rest/v1/decisions?user_id=eq." +:+ str uid
                        +:+ "&order=timestamp.desc";
               headers := [("apikey", key);
                           ("Authorization", "Bearer " +:+ key)];
               json_body := None |}].
Proof using Type. sends. Qed.

Lemma get_user_uploads_sends uid log :
  snd (get_user_uploads base key upstream str uid log)
  = log ++ [{| method := GET;
               url := base +:+ "/rest/v1/uploads?user_id=eq." +:+ str uid
                        +:+ "&order=uploaded_at.desc";
               headers := [("apikey", key);
                           ("Authorization", "Bearer " +:+ key)];
               json_body := None |}].
Proof using Type. sends. Qed.

End Routes.

Lemma depends_user_run secret decode creds handler log :
  depends_user secret decode creds handler log
  = match get_current_user secret decode creds with
    | Returns uid => handler uid log
    | Raises e => (Raises e, log)
    end.
Proof.
  unfold depends_user, lift, mbind, io_bind.
  now destruct (get_current_user secret decode creds).
Qed.

Section Served.

Variable w : World.

Ltac by_route c :=
  destruct c as [d|d|cr|d cr|cr|d|d cr|cr];
  unfold sent, authorised, serve, app;
  cbn [bearer_of forwards verb_of];
  rewrite ?depends_user_run;
  try (destruct (get_current_user (env_jwt_secret w) (env_jwt_decode w) cr)
         as [uid|e] eqn:Hu);
  rewrite ?register_sends, ?login_sends, ?add_decision_sends,
    ?upload_data_sends, ?get_user_decisions_sends, ?get_user_uploads_sends;
  unfold get_profile, lift, mret, io_ret;
  cbn [snd fst andb];
  rewrite ?drop_app_length, ?drop_all.

Lemma prefix_append (s t : string) : String.prefix s (s +:+ t) = true.
Proof.
  induction s as [|a s IH]; [now destruct t|].
  change (String.prefix (String a s) (String a (s +:+ t)) = true). simpl.
  destruct (Ascii.ascii_dec a a) as [_|Hne]; [exact IH|now destruct Hne].
Qed.

(** X9: the log of outbound calls only grows, and a request adds exactly one
    call when its route forwards and its token (if the route asks for one)
    is accepted, and none otherwise: no route ever calls twice. *)
Theorem outbound_calls c log :
  snd (serve w c log) = log ++ sent w c log ∧
  length (sent w c log) = if forwards c && authorised w c then 1%nat else 0%nat.
Proof using Type.
  by_route c; rewrite ?app_nil_r; split; reflexivity.
Qed.

(** X10: a route that asks for a token answers with the failure of the token
    dependency and makes no outbound call: the handler body is not
    entered. *)
Theorem refused_before_forwarding c creds e log :
  bearer_of c = Some creds ->
  get_current_user (env_jwt_secret w) (env_jwt_decode w) creds = Raises e ->
  serve w c log = (Raises e, log).
Proof using Type.
  intros Hb Hu.
  destruct c; cbn [bearer_of] in Hb; try discriminate Hb;
    injection Hb as ->; unfold serve, app; now rewrite depends_user_run, Hu.
Qed.

(** X11: every outbound call goes to a URL under the configured base URL and
    carries the configured API key in its [apikey] header; each header value
    is the key, "Bearer " followed by the key, or the JSON content type, so
    the token presented by the caller is never sent on. *)
Theorem outbound_confined c log :
  Forall (λ req,
            String.prefix (env_url w) (url req) = true ∧
            header "apikey" (headers req) = Some (env_api_key w) ∧
            Forall (λ h, h.2 ∈ [env_api_key w;
                                "Bearer " +:+ env_api_key w;
                                "application/json"])
              (headers req))
    (sent w c log).
Proof using Type.
  by_route c; repeat constructor; cbn [url]; apply prefix_append.
Qed.

(** X12: a [GET] route only ever sends a [GET] without a body and a [POST]
    route a [POST] with a JSON body: reading never writes to the store. *)
Theorem outbound_verb c log :
  Forall (λ req, method req = verb_of c ∧
                 (is_Some (json_body req) ↔ verb_of c = POST))
    (sent w c log).
Proof using Type.
  by_route c; repeat constructor; cbn; try (intros; eauto; fail);
    try (intros []; discriminate); try discriminate.
Qed.

(** X13: once the token is accepted, every call to the store is scoped to the
    subject it returned: a decision or an upload is written with that
    subject as "user_id" and with the clock of the server as its time, and
    the two listings query the rows whose [user_id] is that subject. *)
Theorem store_scoped_to_subject creds uid data_d data_u log :
  get_current_user (env_jwt_secret w) (env_jwt_decode w) creds = Returns uid ->
  (∃ req body,
     sent w (PostDecision data_d creds) log = [req] ∧
     json_body req = Some body ∧
     item "user_id" body = Some uid ∧
     item "timestamp" body = Some (VStr (env_utcnow w))) ∧
  (∃ req body,
     sent w (PostUpload data_u creds) log = [req] ∧
     json_body req = Some body ∧
     item "user_id" body = Some uid ∧
     item "uploaded_at" body = Some (VStr (env_utcnow w))) ∧
  (∃ req,
     sent w (GetDecisions creds) log = [req] ∧
     url req = env_url w +:+ "/rest/v1/decisions?user_id=eq." +:+ env_str w uid
                 +:+ "&order=timestamp.desc") ∧
  (∃ req,
     sent w (GetUploads creds) log = [req] ∧
     url req = env_url w +:+ "/rest/v1/uploads?user_id=eq." +:+ env_str w uid
                 +:+ "&order=uploaded_at.desc").
Proof using Type.
  intros Hu. unfold sent, serve, app. rewrite !depends_user_run, Hu.
  rewrite add_decision_sends, upload_data_sends, get_user_decisions_sends,
    get_user_uploads_sends, !drop_app_length.
  repeat split; repeat eexists.
Qed.

End Served.

Lemma refused_before_forwarding_witness :
  serve (Stub.world Stub.created)
    (PostDecision Stub.decision (Stub.bearer "forged")) []
  = (Raises (HTTPException 403 (VStr "Błąd autoryzacji")), []).
Proof.
  apply (refused_before_forwarding (Stub.world Stub.created)
           (PostDecision Stub.decision (Stub.bearer "forged"))
           (Stub.bearer "forged")); reflexivity.
Defined.

Lemma store_scoped_to_subject_witness :
  (∃ req body,
     sent (Stub.world Stub.created)
       (PostDecision Stub.decision (Stub.bearer "signed.with.sub")) [] = [req] ∧
     json_body req = Some body ∧
     item "user_id" body = Some (VStr "user-1") ∧
     item "timestamp" body = Some (VStr "2024-05-01T12:00:00")) ∧
  (∃ req body,
     sent (Stub.world Stub.created)
       (PostUpload Stub.upload (Stub.bearer "signed.with.sub")) [] = [req] ∧
     json_body req = Some body ∧
     item "user_id" body = Some (VStr "user-1") ∧
     item "uploaded_at" body = Some (VStr "2024-05-01T12:00:00")) ∧
  (∃ req,
     sent (Stub.world Stub.created)
       (GetDecisions (Stub.bearer "signed.with.sub")) [] = [req] ∧
     url req = "https://project.supabase.co" +:+ "/rest/v1/decisions?user_id=eq."
                 +:+ "user-1" +:+ "&order=timestamp.desc") ∧
  (∃ req,
     sent (Stub.world Stub.created)
       (GetUploads (Stub.bearer "signed.with.sub")) [] = [req] ∧
     url req = "https://project.supabase.co" +:+ "/rest/v1/uploads?user_id=eq."
                 +:+ "user-1" +:+ "&order=uploaded_at.desc").
Proof.
  apply (store_scoped_to_subject (Stub.world Stub.created)
           (Stub.bearer "signed.with.sub") (VStr "user-1")
           Stub.decision Stub.upload []).
  reflexivity.
Defined.

(** ** Upstream statuses *)

Section Statuses.

Variables base key : string.
Variable upstream : Request -> Response.
Variable str : value -> string.
Variable phrase : Z -> option string.

(** X14: on status 200 the two auth routes and the two listings make one
    call and answer with [response.json()] of the response to that call:
    its decoded body as it came, or [JSONDecodeError] when the body is not
    JSON. *)
Theorem ok_passes_body data uid log :
  (∀ req, status_code (upstream req) = 200) ->
  Forall (λ m : io value,
            ∃ req, snd (m log) = log ++ [req] ∧
                   fst (m log) = json (upstream req))
    [register base key upstream phrase data;
     login base key upstream phrase data;
     get_user_decisions base key upstream str uid;
     get_user_uploads base key upstream str uid].
Proof using Type.
  intros Hok. repeat constructor.
  - destruct (register_run base key upstream phrase data log) as (req & Hl & Hr).
    exists req. split; [exact Hl|].
    rewrite Hr, Hok. unfold json. now destruct (decoded (upstream req)).
  - destruct (login_run base key upstream phrase data log) as (req & Hl & Hr).
    exists req. split; [exact Hl|].
    rewrite Hr, Hok. unfold json. now destruct (decoded (upstream req)).
  - destruct (get_user_decisions_run base key upstream str uid log) as (req & Hl & Hr).
    exists req. split; [exact Hl|]. now rewrite Hr, Hok.
  - destruct (get_user_uploads_run base key upstream str uid log) as (req & Hl & Hr).
    exists req. split; [exact Hl|]. now rewrite Hr, Hok.
Qed.

(** X15: the listings accept status 200 and nothing else: on any other
    status of the response to the one call they make, another 2xx such as
    206 included, they raise an [HTTPException] that carries that status
    and the text of that response. *)
Theorem listing_only_200 uid log :
  (∀ req, status_code (upstream req) ≠ 200) ->
  Forall (λ m : io value,
            ∃ req, snd (m log) = log ++ [req] ∧
                   fst (m log) = Raises (HTTPException (status_code (upstream req))
                                           (VStr (text (upstream req)))))
    [get_user_decisions base key upstream str uid;
     get_user_uploads base key upstream str uid].
Proof using Type.
  intros Hne.
  assert (H200 : ∀ req, (status_code (upstream req) =? 200) = false)
    by (intros req; specialize (Hne req); lia).
  repeat constructor.
  - destruct (get_user_decisions_run base key upstream str uid log) as (req & Hl & Hr).
    exists req. split; [exact Hl|]. now rewrite Hr, H200.
  - destruct (get_user_uploads_run base key upstream str uid log) as (req & Hl & Hr).
    exists req. split; [exact Hl|]. now rewrite Hr, H200.
Qed.

End Statuses.

Lemma ok_passes_body_witness :
  Forall (λ m : io value,
            ∃ req, snd (m []) = [] ++ [req] ∧
                   fst (m []) = json (Reply.always Reply.ok_rows req))
    [register "https://project.supabase.co" "anon-key"
       (Reply.always Reply.ok_rows) Stub.phrase Stub.user;
     login "https://project.supabase.co" "anon-key"
       (Reply.always Reply.ok_rows) Stub.phrase Stub.user;
     get_user_decisions "https://project.supabase.co" "anon-key"
       (Reply.always Reply.ok_rows) Stub.show (VStr "user-1");
     get_user_uploads "https://project.supabase.co" "anon-key"
       (Reply.always Reply.ok_rows) Stub.show (VStr "user-1")].
Proof.
  apply (ok_passes_body "https://project.supabase.co" "anon-key"
           (Reply.always Reply.ok_rows) Stub.show Stub.phrase Stub.user
           (VStr "user-1") []).
  intros req. reflexivity.
Defined.

Lemma listing_only_200_witness :
  Forall (λ m : io value,
            ∃ req, snd (m []) = [] ++ [req] ∧
                   fst (m []) = Raises (HTTPException
                                          (status_code (Reply.always Reply.partial_content req))
                                          (VStr (text (Reply.always Reply.partial_content req)))))
    [get_user_decisions "https://project.supabase.co" "anon-key"
       (Reply.always Reply.partial_content) Stub.show (VStr "user-1");
     get_user_uploads "https://project.supabase.co" "anon-key"
       (Reply.always Reply.partial_content) Stub.show (VStr "user-1")].
Proof.
  apply (listing_only_200 "https://project.supabase.co" "anon-key"
           (Reply.always Reply.partial_content) Stub.show (VStr "user-1") []).
  intros req. discriminate.
Defined.

Lemma store_failure_relayed_witness :
  Forall (λ m : io value,
            ∃ req, snd (m []) = [] ++ [req] ∧
                   fst (m []) = Raises (HTTPException
                                          (status_code (Reply.always Stub.bad_gateway req))
                                          (VStr (text (Reply.always Stub.bad_gateway req)))))
    [add_decision "https://project.supabase.co" "anon-key" (Reply.always Stub.bad_gateway)
       "2024-05-01T12:00:00" Stub.decision (VStr "user-1");
     get_user_decisions "https://project.supabase.co" "anon-key"
       (Reply.always Stub.bad_gateway) Stub.show (VStr "user-1");
     upload_data "https://project.supabase.co" "anon-key" (Reply.always Stub.bad_gateway)
       "2024-05-01T12:00:00" Stub.upload (VStr "user-1");
     get_user_uploads "https://project.supabase.co" "anon-key"
       (Reply.always Stub.bad_gateway) Stub.show (VStr "user-1")].
Proof.
  apply (store_failure_relayed "https://project.supabase.co" "anon-key"
           (Reply.always Stub.bad_gateway) "2024-05-01T12:00:00" Stub.show
           Stub.decision Stub.upload (VStr "user-1") []);
    [intros req; cbn; lia|reflexivity..].
Defined.

Lemma auth_failure_relayed_witness :
  Forall (λ m : io value,
            ∃ req body, snd (m []) = [] ++ [req] ∧
                        decoded (Reply.always Stub.unprocessable req) = Some body ∧
                        fst (m []) = Raises (HTTPException
                                               (status_code (Reply.always Stub.unprocessable req))
                                               body))
    [register "https://project.supabase.co" "anon-key"
       (Reply.always Stub.unprocessable) Stub.phrase Stub.user;
     login "https://project.supabase.co" "anon-key"
       (Reply.always Stub.unprocessable) Stub.phrase Stub.user].
Proof.
  apply (auth_failure_relayed "https://project.supabase.co" "anon-key"
           (Reply.always Stub.unprocessable) Stub.phrase Stub.user []).
  - intros req. cbn. lia.
  - intros req. eexists. split; [reflexivity|discriminate].
Defined.

Example listing_ok_page :
  fst (run (serve (Stub.world Reply.ok_page)
              (GetUploads (Stub.bearer "signed.with.sub"))))
  = Raises JSONDecodeError.
Proof. reflexivity. Qed.

Example null_threshold_not_defaulted :
  analyze_price {| price := Sample.f50; thresholds := {[ "buy" := VNone ]} |}
  = Raises TypeError.
Proof. reflexivity. Qed.

Example decision_nan_refused :
  run (serve (Stub.world Stub.created)
         (PostDecision Reply.nan_decision (Stub.bearer "signed.with.sub")))
  = (Raises InvalidJSONError,
     sent (Stub.world Stub.created)
       (PostDecision Reply.nan_decision (Stub.bearer "signed.with.sub")) []).
Proof. reflexivity. Qed.

Example register_null_body :
  fst (run (serve (Stub.world Reply.null_unauthorized) (PostRegister Stub.user)))
  = Raises (HTTPException 401 (VStr "Unauthorized")).
Proof. reflexivity. Qed.

Example register_null_body_unknown_status :
  fst (run (serve (Stub.world {| status_code := 520; text := "null";
                                 decoded := Some VNone |})
              (PostRegister Stub.user)))
  = Raises ValueError.
Proof. reflexivity. Qed.
